(** * Agent Studio: a shallow embedding of [src/app/src/components/AgentStudio.tsx]

    The component keeps its view state in React [useState] hooks.  Every
    event handler reads the current render state and issues a list of
    setter calls ([setConfig], [setPlanStates], [setActivity], ...); React
    applies them in order, functional updaters seeing the latest value.
    We model exactly that: a [State] record with one field per hook, an
    [Update] per setter call, and handlers returning the setter calls they
    issue, committed by [commit].

    JavaScript strings are sequences of UTF-16 code units, modelled as
    [list Z].  Objects used as dictionaries ([PlanState], [ToolHistory]) are
    stdpp [gmap]s keyed by such strings; [{ ...prev, [k]: v }] is an insert.

    The library module [@/lib/agent] (craftBlueprint, createActivity,
    runToolSimulation, searchKnowledge) is not part of the sources; the first
    three are section parameters, so every result holds for any
    implementation of them, and [searchKnowledge] is modelled from the spec. *)

From Stdlib Require Import ZArith Lia DecimalZ.

From stdpp Require Import base list gmap strings.

Open Scope Z_scope.

(** ** JavaScript strings *)

(** A JS string: its UTF-16 code units. *)
Abbreviation jstr := (list Z).

(** String literals of the source (all ASCII) as code units. *)
Definition js (s : String.string) : jstr :=
  map (fun a => Z.of_nat (Ascii.nat_of_ascii a)) (String.list_ascii_of_string s).
Arguments js s%_string_scope.

(** [WhiteSpace] and [LineTerminator] code units of ECMAScript, the set
    removed by [String.prototype.trim]: TAB, VT, FF, SP, NBSP, ZWNBSP, the
    Unicode [Zs] space separators, LF, CR, LS and PS. *)
Definition is_js_ws (c : Z) : bool :=
  (c =? 9) || (c =? 11) || (c =? 12) || (c =? 32) || (c =? 160)
  || (c =? 65279) || (c =? 5760) || ((8192 <=? c) && (c <=? 8202))
  || (c =? 8239) || (c =? 8287) || (c =? 12288)
  || (c =? 10) || (c =? 13) || (c =? 8232) || (c =? 8233).

Fixpoint trim_start (s : jstr) : jstr :=
  match s with
  | [] => []
  | c :: r => if is_js_ws c then trim_start r else s
  end.

(** [s.trim()]: leading, then trailing whitespace removed. *)
Definition trim (s : jstr) : jstr := rev (trim_start (rev (trim_start s))).

(** Decimal digits of a number, as [`${n}`] prints a non-negative integer. *)
Fixpoint uint_digits (d : Decimal.uint) : jstr :=
  match d with
  | Decimal.Nil => []
  | Decimal.D0 r => 48 :: uint_digits r
  | Decimal.D1 r => 49 :: uint_digits r
  | Decimal.D2 r => 50 :: uint_digits r
  | Decimal.D3 r => 51 :: uint_digits r
  | Decimal.D4 r => 52 :: uint_digits r
  | Decimal.D5 r => 53 :: uint_digits r
  | Decimal.D6 r => 54 :: uint_digits r
  | Decimal.D7 r => 55 :: uint_digits r
  | Decimal.D8 r => 56 :: uint_digits r
  | Decimal.D9 r => 57 :: uint_digits r
  end.

Definition number_to_string (z : Z) : jstr :=
  match Z.to_int z with
  | Decimal.Pos d => uint_digits d
  | Decimal.Neg d => 45 :: uint_digits d
  end.

(** [a || b] on strings: the empty string is falsy. *)
Definition str_or (a b : jstr) : jstr :=
  match a with [] => b | _ => a end.

(** ** JavaScript arrays *)

Fixpoint findIndex_from {A} (p : A -> bool) (l : list A) (i : Z) : Z :=
  match l with
  | [] => -1
  | x :: r => if p x then i else findIndex_from p r (i + 1)
  end.

(** [arr.findIndex(p)]: the first index satisfying [p], or [-1]. *)
Definition findIndex {A} (p : A -> bool) (l : list A) : Z := findIndex_from p l 0.

(** [arr[i]]: [undefined] (None) for a negative or too large index. *)
Definition js_at {A} (l : list A) (i : Z) : option A :=
  if i <? 0 then None else l !! Z.to_nat i.

(** ** Data model (types of [@/lib/agent] as the component uses them) *)

Inductive MissionTimeframe := TwoWeeks | ThirtyDays | SixtyDays | NinetyDays.
Inductive Intensity := Aggressive | Balanced | Sustainable.

Record MissionConfig := {
  goal : jstr;
  context : jstr;
  timeframe : MissionTimeframe;
  intensity : Intensity;
  guardrails : jstr;
}.

Record PlanStep := {
  step_id : jstr;
  title : jstr;
  duration : jstr;
  narrative : jstr;
  leverage : jstr;
  confidence : Z;
  energy : jstr;
  catalyst : jstr;
  dependencies : list jstr;
}.

Record Tool := { tool_id : jstr; name : jstr; description : jstr; scenario : jstr }.
Record QuickAction := { action_id : jstr; action_label : jstr; objective : jstr; value : jstr }.
Record Metric := { metric_id : jstr; metric_label : jstr; target : jstr; cadence_of : jstr }.
Record Focus := { focus_id : jstr; focus_label : jstr; score : Z; driver : jstr }.

Record AgentBlueprint := {
  missionTitle : jstr;
  missionSummary : jstr;
  operatingMode : jstr;
  missionArc : jstr;
  cadence : jstr;
  plan : list PlanStep;
  tools : list Tool;
  quickActions : list QuickAction;
  metrics : list Metric;
  focusMap : list Focus;
}.

Record ToolRun := { timestamp : Z; headline : jstr; run_insight : jstr; signalStrength : Z }.

Record ActivityLogItem := { log_id : jstr; label : jstr; detail : jstr; log_timestamp : Z }.

Record KnowledgeItem := { item_id : jstr; item_title : jstr; summary : jstr; tags : list jstr }.

Inductive InsightCategory := Signal | Decision | Note.

Record Insight := { insight_id : jstr; text : jstr; category : InsightCategory; createdAt : Z }.

Inductive StepStatus := Pending | Active | Done.

Global Instance StepStatus_eq_dec : EqDecision StepStatus.
Proof. solve_decision. Defined.

(** [type PlanState = Record<string, "pending" | "active" | "done">] *)
Abbreviation PlanState := (gmap jstr StepStatus).
(** [type ToolHistory = Record<string, ToolRun[]>] *)
Abbreviation ToolHistory := (gmap jstr (list ToolRun)).

(** One field per [useState] hook of [AgentStudio]. *)
Record State := {
  config : MissionConfig;
  blueprint : AgentBlueprint;
  planStates : PlanState;
  activity : list ActivityLogItem;
  insights : list Insight;
  insightDraft : jstr;
  insightCategory : InsightCategory;
  knowledgeQuery : jstr;
  toolHistory : ToolHistory;
}.

(** ** React state updates *)

(** One call of a state setter; functional updaters receive [prev]. *)
Inductive Update :=
| SetConfig (f : MissionConfig -> MissionConfig)
| SetBlueprint (b : AgentBlueprint)
| SetPlanStates (f : PlanState -> PlanState)
| SetActivity (f : list ActivityLogItem -> list ActivityLogItem)
| SetInsights (f : list Insight -> list Insight)
| SetInsightDraft (s : jstr)
| SetInsightCategory (c : InsightCategory)
| SetKnowledgeQuery (s : jstr)
| SetToolHistory (f : ToolHistory -> ToolHistory).

Definition apply_update (u : Update) (st : State) : State :=
  let '{| config := c; blueprint := b; planStates := p; activity := a;
          insights := i; insightDraft := d; insightCategory := ic;
          knowledgeQuery := q; toolHistory := h |} := st in
  match u with
  | SetConfig f => {| config := f c; blueprint := b; planStates := p; activity := a;
      insights := i; insightDraft := d; insightCategory := ic; knowledgeQuery := q; toolHistory := h |}
  | SetBlueprint b' => {| config := c; blueprint := b'; planStates := p; activity := a;
      insights := i; insightDraft := d; insightCategory := ic; knowledgeQuery := q; toolHistory := h |}
  | SetPlanStates f => {| config := c; blueprint := b; planStates := f p; activity := a;
      insights := i; insightDraft := d; insightCategory := ic; knowledgeQuery := q; toolHistory := h |}
  | SetActivity f => {| config := c; blueprint := b; planStates := p; activity := f a;
      insights := i; insightDraft := d; insightCategory := ic; knowledgeQuery := q; toolHistory := h |}
  | SetInsights f => {| config := c; blueprint := b; planStates := p; activity := a;
      insights := f i; insightDraft := d; insightCategory := ic; knowledgeQuery := q; toolHistory := h |}
  | SetInsightDraft d' => {| config := c; blueprint := b; planStates := p; activity := a;
      insights := i; insightDraft := d'; insightCategory := ic; knowledgeQuery := q; toolHistory := h |}
  | SetInsightCategory ic' => {| config := c; blueprint := b; planStates := p; activity := a;
      insights := i; insightDraft := d; insightCategory := ic'; knowledgeQuery := q; toolHistory := h |}
  | SetKnowledgeQuery q' => {| config := c; blueprint := b; planStates := p; activity := a;
      insights := i; insightDraft := d; insightCategory := ic; knowledgeQuery := q'; toolHistory := h |}
  | SetToolHistory f => {| config := c; blueprint := b; planStates := p; activity := a;
      insights := i; insightDraft := d; insightCategory := ic; knowledgeQuery := q; toolHistory := f h |}
  end.

(** The setter calls of one event, applied in order. *)
Definition commit (us : list Update) (st : State) : State :=
  fold_left (fun s u => apply_update u s) us st.

(** [{ ...prev, field: value }] for each field of the config form. *)
Definition with_goal (v : jstr) (c : MissionConfig) : MissionConfig :=
  {| goal := v; context := context c; timeframe := timeframe c;
     intensity := intensity c; guardrails := guardrails c |}.
Definition with_context (v : jstr) (c : MissionConfig) : MissionConfig :=
  {| goal := goal c; context := v; timeframe := timeframe c;
     intensity := intensity c; guardrails := guardrails c |}.
Definition with_timeframe (v : MissionTimeframe) (c : MissionConfig) : MissionConfig :=
  {| goal := goal c; context := context c; timeframe := v;
     intensity := intensity c; guardrails := guardrails c |}.
Definition with_intensity (v : Intensity) (c : MissionConfig) : MissionConfig :=
  {| goal := goal c; context := context c; timeframe := timeframe c;
     intensity := v; guardrails := guardrails c |}.
Definition with_guardrails (v : jstr) (c : MissionConfig) : MissionConfig :=
  {| goal := goal c; context := context c; timeframe := timeframe c;
     intensity := intensity c; guardrails := v |}.

(** [plan.forEach((step, index) => { next[step.id] = index === 0 ? "active" : "pending"; })] *)
Fixpoint init_plan_states_from (index : nat) (steps : list PlanStep) (next : PlanState)
    : PlanState :=
  match steps with
  | [] => next
  | step :: rest =>
      init_plan_states_from (S index) rest
        (<[step_id step := if decide (index = 0%nat) then Active else Pending]> next)
  end.

Definition initPlanStates (steps : list PlanStep) : PlanState :=
  init_plan_states_from 0 steps ∅.

(** [planStates[step.id] ?? "pending"], as the timeline renders a step. *)
Definition status_of (ps : PlanState) (id : jstr) : StepStatus :=
  default Pending (ps !! id).

Definition INITIAL_CONFIG : MissionConfig := {|
  goal := js "Launch an AI-native growth engine that doubles qualified pipeline within 90 days.";
  context := js "B2B SaaS scaling to mid-market. Need rapid insights on buyer motion and automation opportunities.";
  timeframe := NinetyDays;
  intensity := Aggressive;
  guardrails := js "Maintain brand trust and legal compliance while moving fast.";
|}.

(** Substring test on code units. *)
Fixpoint is_prefix (p s : jstr) : bool :=
  match p, s with
  | [], _ => true
  | _ :: _, [] => false
  | x :: p', y :: s' => (x =? y) && is_prefix p' s'
  end.

Fixpoint is_substring (p s : jstr) : bool :=
  is_prefix p s || match s with [] => false | _ :: s' => is_substring p s' end.

(** The events the rendered component reacts to. *)
Inductive Action :=
| EditGoal (v : jstr)
| EditContext (v : jstr)
| EditTimeframe (v : MissionTimeframe)
| EditIntensity (v : Intensity)
| EditGuardrails (v : jstr)
| Generate
| Advance (step : PlanStep)
| SelectInsightCategory (c : InsightCategory)
| EditInsightDraft (v : jstr)
| CaptureInsight
| FireTool (toolId : jstr)
| EditKnowledgeQuery (v : jstr).

Section AgentStudio.

(** The library functions of [@/lib/agent] that are not in the sources.
    [createActivity] and [runToolSimulation] read the clock ([Date.now()])
    or a random source; they receive the event's time [now]. *)
Variable craftBlueprint : MissionConfig -> AgentBlueprint.
Variable createActivity : Z -> jstr -> jstr -> ActivityLogItem.
Variable runToolSimulation : Z -> jstr -> jstr -> ToolRun.

(** Modelled from the spec: the catalog and [searchKnowledge] of
    [@/lib/agent], absent from the sources.  The spec: "Filters a fixed
    in-memory catalog of knowledge items by substring/keyword match against
    title, summary, or tags; ... no ranking beyond inclusion". *)
Variable knowledgeBase : list KnowledgeItem.

Definition item_matches (query : jstr) (item : KnowledgeItem) : bool :=
  is_substring query (item_title item) || is_substring query (summary item)
  || existsb (is_substring query) (tags item).

Definition searchKnowledge (query : jstr) : list KnowledgeItem :=
  filter (fun item => item_matches query item = true) knowledgeBase.

(** [useMemo(() => searchKnowledge(knowledgeQuery), [knowledgeQuery])] *)
Definition knowledgeResults (st : State) : list KnowledgeItem :=
  searchKnowledge (knowledgeQuery st).

Definition INITIAL_BLUEPRINT : AgentBlueprint := craftBlueprint INITIAL_CONFIG.

(** The state of a freshly mounted [AgentStudio], [t0] the mount time. *)
Definition initial_state (t0 : Z) : State := {|
  config := INITIAL_CONFIG;
  blueprint := INITIAL_BLUEPRINT;
  planStates := initPlanStates (plan INITIAL_BLUEPRINT);
  activity := [createActivity t0 (js "Agent Primed")
                 (js "Mission seeded with default aggressive growth blueprint.")];
  insights := [];
  insightDraft := [];
  insightCategory := Signal;
  knowledgeQuery := [];
  toolHistory := ∅;
|}.

(** [handleGenerate]; 34 is the code unit of a double quote. *)
Definition handleGenerate (now : Z) (st : State) : list Update :=
  let nextBlueprint := craftBlueprint (config st) in
  let nextStates := initPlanStates (plan nextBlueprint) in
  [ SetBlueprint nextBlueprint;
    SetPlanStates (fun _ => nextStates);
    SetActivity (fun prev =>
      createActivity now (js "Mission Rebuilt")
        (js "Agent recalibrated around " ++ [34]
           ++ str_or (goal (config st)) (js "new objective") ++ [34; 46])
      :: prev) ].

(** [handleAdvance(step)]; [blueprint] is the one of the render state. *)
Definition handleAdvance (now : Z) (step : PlanStep) (st : State) : list Update :=
  [ SetPlanStates (fun prev =>
      let next := <[step_id step := Done]> prev in
      let currentIndex :=
        findIndex (fun item => bool_decide (step_id item = step_id step))
          (plan (blueprint st)) in
      match js_at (plan (blueprint st)) (currentIndex + 1) with
      | Some nextStep => <[step_id nextStep := Active]> next
      | None => next
      end);
    SetActivity (fun prev =>
      createActivity now (js "Step Advanced")
        (title step ++ js " marked complete. Catalyst: " ++ catalyst step ++ js ".")
      :: prev) ].

(** [handleInsightCreate]; both [Date.now()] reads are taken at [now]. *)
Definition handleInsightCreate (now : Z) (st : State) : list Update :=
  match trim (insightDraft st) with
  | [] => []
  | _ =>
      let entry := {| insight_id := js "insight-" ++ number_to_string now;
                      text := trim (insightDraft st);
                      category := insightCategory st;
                      createdAt := now |} in
      [ SetInsights (fun prev => entry :: prev);
        SetInsightDraft [];
        SetActivity (fun prev =>
          createActivity now (js "Insight Captured") (text entry) :: prev) ]
  end.

(** [handleToolRun(toolId, query)] *)
Definition handleToolRun (now : Z) (toolId query : jstr) (st : State) : list Update :=
  let run := runToolSimulation now toolId query in
  [ SetToolHistory (fun prev =>
      let history := default [] (prev !! toolId) in
      <[toolId := take 5 (run :: history)]> prev);
    SetActivity (fun prev =>
      createActivity now (js "Tool Fired") (toolId ++ js " returned " ++ headline run)
      :: prev) ].

(** The setter calls the rendered component issues for one event.  The
    tool console fires [handleToolRun(tool.id, config.goal)]. *)
Definition handlers (now : Z) (a : Action) (st : State) : list Update :=
  match a with
  | EditGoal v => [SetConfig (with_goal v)]
  | EditContext v => [SetConfig (with_context v)]
  | EditTimeframe v => [SetConfig (with_timeframe v)]
  | EditIntensity v => [SetConfig (with_intensity v)]
  | EditGuardrails v => [SetConfig (with_guardrails v)]
  | Generate => handleGenerate now st
  | Advance step => handleAdvance now step st
  | SelectInsightCategory c => [SetInsightCategory c]
  | EditInsightDraft v => [SetInsightDraft v]
  | CaptureInsight => handleInsightCreate now st
  | FireTool toolId => handleToolRun now toolId (goal (config st)) st
  | EditKnowledgeQuery v => [SetKnowledgeQuery v]
  end.

Definition dispatch (now : Z) (a : Action) (st : State) : State :=
  commit (handlers now a st) st.

(** A session: timed events in chronological order. *)
Definition run_actions (evs : list (Z * Action)) (st : State) : State :=
  fold_left (fun s '(now, a) => dispatch now a s) evs st.

(** The runs of tool [t] fired in a session, oldest first. *)
Fixpoint tool_runs (t : jstr) (evs : list (Z * Action)) (st : State) : list ToolRun :=
  match evs with
  | [] => []
  | (now, a) :: rest =>
      let st' := dispatch now a st in
      match a with
      | FireTool t' =>
          if bool_decide (t' = t)
          then runToolSimulation now t' (goal (config st)) :: tool_runs t rest st'
          else tool_runs t rest st'
      | _ => tool_runs t rest st'
      end
  end.

(** The texts of the insights captured in a session, oldest first: the
    trimmed drafts of the captures that pass the blank-draft guard. *)
Fixpoint captured_texts (evs : list (Z * Action)) (st : State) : list jstr :=
  match evs with
  | [] => []
  | (now, a) :: rest =>
      let st' := dispatch now a st in
      match a with
      | CaptureInsight =>
          match trim (insightDraft st) with
          | [] => captured_texts rest st'
          | t => t :: captured_texts rest st'
          end
      | _ => captured_texts rest st'
      end
  end.

(** A click of the "Mark Complete" button: rendered only for the steps of
    [blueprint.plan], and disabled unless the step's status is "active". *)
Inductive advance_active : State -> State -> Prop :=
| advance_active_intro now step st :
    step ∈ plan (blueprint st) ->
    status_of (planStates st) (step_id step) = Active ->
    advance_active st (dispatch now (Advance step) st).

Inductive advances : nat -> State -> State -> Prop :=
| advances_zero st : advances 0 st st
| advances_succ n st st' st'' :
    advances n st st' -> advance_active st' st'' -> advances (S n) st st''.

End AgentStudio.

(** ** Observations on a state *)

(** The rendered status of each step of the current plan, in plan order. *)
Definition statuses (st : State) : list StepStatus :=
  (fun s => status_of (planStates st) (step_id s)) <$> plan (blueprint st).

Definition count_status (x : StepStatus) (l : list StepStatus) : nat :=
  length (filter (fun y => y = x) l).

(** The events that add an entry to the activity stream. *)
Definition logs_activity (a : Action) (st : State) : bool :=
  match a with
  | Generate | Advance _ | FireTool _ => true
  | CaptureInsight => negb (forallb is_js_ws (insightDraft st))
  | _ => false
  end.

Definition is_config_update (u : Update) : bool :=
  match u with SetConfig _ => true | _ => false end.

(** Step [i] of a plan whose first [k] steps have been completed. *)
Definition pos_status (k i : nat) : StepStatus :=
  if decide (i < k)%nat then Done else if decide (i = k) then Active else Pending.

(** [arr.find(p)]: the first element satisfying [p], or [undefined]. *)
Fixpoint js_find {A} (p : A -> bool) (l : list A) : option A :=
  match l with
  | [] => None
  | x :: r => if p x then Some x else js_find p r
  end.

(** [activeStep = blueprint.plan.find((step) => planStates[step.id] === "active")] *)
Definition activeStep (st : State) : option PlanStep :=
  js_find (fun step => bool_decide (planStates st !! step_id step = Some Active))
    (plan (blueprint st)).

(** The timeline header:
    [activeStep ? `Current focus: ${activeStep.title}` : "All steps complete"] *)
Definition focus_text (st : State) : jstr :=
  match activeStep st with
  | Some step => js "Current focus: " ++ title step
  | None => js "All steps complete"
  end.

(** A non-empty text that neither starts nor ends with whitespace. *)
Definition clean_text (s : jstr) : bool :=
  match head s, last s with
  | Some a, Some b => negb (is_js_ws a) && negb (is_js_ws b)
  | _, _ => false
  end.

(** The plan of [st] shows its first [k] steps done, step [k] active (if
    any) and the rest pending. *)
Definition plan_inv (st : State) (k : nat) : Prop :=
  (k <= length (plan (blueprint st)))%nat /\
  forall i s, plan (blueprint st) !! i = Some s ->
    status_of (planStates st) (step_id s) = pos_status k i.

(** ** Sample instances of the library, for concrete runs *)

Definition sample_step (n : Z) : PlanStep := {|
  step_id := js "step-" ++ number_to_string n;
  title := js "Phase " ++ number_to_string n;
  duration := js "1 week"; narrative := js "Work."; leverage := js "High";
  confidence := 80; energy := js "High"; catalyst := js "Focus";
  dependencies := [] |}.

Definition sample_blueprint (c : MissionConfig) : AgentBlueprint := {|
  missionTitle := goal c; missionSummary := context c; operatingMode := js "Mode";
  missionArc := js "Arc"; cadence := js "Weekly";
  plan := [sample_step 1; sample_step 2; sample_step 3];
  tools := [{| tool_id := js "scout"; name := js "Scout"; description := js "Scans.";
               scenario := js "Market scan." |}];
  quickActions := []; metrics := []; focusMap := [] |}.

Definition sample_activity (now : Z) (l d : jstr) : ActivityLogItem :=
  {| log_id := js "log-" ++ number_to_string now; label := l; detail := d;
     log_timestamp := now |}.

Definition sample_run (now : Z) (toolId query : jstr) : ToolRun :=
  {| timestamp := now; headline := toolId ++ js " scan"; run_insight := query;
     signalStrength := 70 |}.

Definition sample_catalog : list KnowledgeItem := [
  {| item_id := js "k1"; item_title := js "Growth loops"; summary := js "Compounding acquisition.";
     tags := [js "growth"; js "loops"] |};
  {| item_id := js "k2"; item_title := js "Pricing rituals"; summary := js "Weekly pricing review.";
     tags := [js "pricing"] |} ].

Definition sample_state : State :=
  initial_state sample_blueprint sample_activity 1000.

Definition sample_dispatch := dispatch sample_blueprint sample_activity sample_run.

(** The sample session with a padded insight draft typed in. *)
Definition sample_drafted : State :=
  sample_dispatch 1200 (EditInsightDraft (js "  Pricing signal  ")) sample_state.

(** A session that edits the configuration and works on the plan and the
    tools without regenerating the blueprint. *)
Definition sample_edits : list (Z * Action) :=
  [(1100, EditGoal (js "Open a new region")); (1200, EditIntensity Balanced);
   (1300, Advance (sample_step 1)); (1400, FireTool (js "scout"))].

(** The sample session after completing its first two steps. *)
Definition sample_advanced : State :=
  sample_dispatch 1600 (Advance (sample_step 2))
    (sample_dispatch 1500 (Advance (sample_step 1)) sample_state).

(** * Proofs *)

Section Proofs.

Variable craftBlueprint : MissionConfig -> AgentBlueprint.
Variable createActivity : Z -> jstr -> jstr -> ActivityLogItem.
Variable runToolSimulation : Z -> jstr -> jstr -> ToolRun.
Variable knowledgeBase : list KnowledgeItem.

Local Abbreviation dispatch := (dispatch craftBlueprint createActivity runToolSimulation).

(** ** Plan states *)

Lemma init_plan_states_from_notin (steps : list PlanStep) index next k :
  k ∉ step_id <$> steps ->
  init_plan_states_from index steps next !! k = next !! k.
Proof.
  revert index next. induction steps as [|s rest IH]; intros index next Hk; simpl; [done|].
  rewrite fmap_cons, elem_of_cons in Hk.
  rewrite IH by tauto. apply lookup_insert_ne. intros Heq. subst k. tauto.
Qed.

Lemma init_plan_states_from_lookup (steps : list PlanStep) index next j s :
  NoDup (step_id <$> steps) -> steps !! j = Some s ->
  init_plan_states_from index steps next !! step_id s
  = Some (if decide (index + j = 0)%nat then Active else Pending).
Proof.
  revert index next j. induction steps as [|s0 rest IH]; intros index next j Hnd Hj;
    [done|].
  rewrite fmap_cons, NoDup_cons in Hnd. destruct Hnd as [Hnotin Hnd].
  destruct j as [|j]; simpl in Hj |- *.
  - injection Hj as <-.
    rewrite init_plan_states_from_notin by done.
    rewrite lookup_insert_eq, Nat.add_0_r. done.
  - rewrite (IH (S index) _ j) by done.
    by replace (S index + j)%nat with (index + S j)%nat by lia.
Qed.

(** Distinct positions of a plan with distinct ids carry distinct ids. *)
Lemma plan_ids_ne (steps : list PlanStep) i j s s' :
  NoDup (step_id <$> steps) -> steps !! i = Some s -> steps !! j = Some s' ->
  i <> j -> step_id s <> step_id s'.
Proof.
  intros Hnd Hi Hj Hij Heq. apply Hij.
  apply (NoDup_lookup (step_id <$> steps) i j (step_id s)); [done| |].
  - by rewrite list_lookup_fmap, Hi.
  - by rewrite list_lookup_fmap, Hj, Heq.
Qed.

Lemma findIndex_from_first {A} (p : A -> bool) (l : list A) z k x :
  l !! k = Some x -> p x = true ->
  (forall j y, (j < k)%nat -> l !! j = Some y -> p y = false) ->
  findIndex_from p l z = z + Z.of_nat k.
Proof.
  revert z k. induction l as [|a l IH]; intros z k Hk Hx Hbefore; [done|].
  destruct k as [|k]; simpl in Hk |- *.
  - injection Hk as ->. rewrite Hx. lia.
  - rewrite (Hbefore 0%nat a) by (done || lia).
    rewrite (IH (z + 1) k); [lia|done|done|].
    intros j y Hj Hy. apply (Hbefore (S j)); [lia|done].
Qed.

(** [findIndex] locates a step of a plan with distinct ids. *)
Lemma findIndex_step (steps : list PlanStep) k step :
  NoDup (step_id <$> steps) -> steps !! k = Some step ->
  findIndex (fun item => bool_decide (step_id item = step_id step)) steps = Z.of_nat k.
Proof.
  intros Hnd Hk. unfold findIndex.
  rewrite (findIndex_from_first _ _ 0 k step); [lia|done|by apply bool_decide_eq_true|].
  intros j y Hj Hy. apply bool_decide_eq_false.
  apply (plan_ids_ne steps j k); [done|done|done|lia].
Qed.

Lemma findIndex_absent {A} (p : A -> bool) (l : list A) z :
  Forall (fun y => p y = false) l -> findIndex_from p l z = -1.
Proof.
  revert z. induction l as [|a l IH]; intros z Hall; [done|].
  rewrite Forall_cons in Hall. destruct Hall as [Ha Hl]. simpl. rewrite Ha. by apply IH.
Qed.

(** The effect of one [handleAdvance], field by field. *)
Lemma dispatch_advance now step st :
  let prev := planStates st in
  let next := <[step_id step := Done]> prev in
  let ix := findIndex (fun item => bool_decide (step_id item = step_id step))
              (plan (blueprint st)) in
  dispatch now (Advance step) st = {|
    config := config st;
    blueprint := blueprint st;
    planStates := match js_at (plan (blueprint st)) (ix + 1) with
                  | Some nextStep => <[step_id nextStep := Active]> next
                  | None => next
                  end;
    activity := createActivity now (js "Step Advanced")
        (title step ++ js " marked complete. Catalyst: " ++ catalyst step ++ js ".")
      :: activity st;
    insights := insights st;
    insightDraft := insightDraft st;
    insightCategory := insightCategory st;
    knowledgeQuery := knowledgeQuery st;
    toolHistory := toolHistory st |}.
Proof. by destruct st. Qed.

Ltac pos_solve := unfold pos_status; repeat case_decide; simpl; (done || lia).

Lemma init_plan_inv st :
  NoDup (step_id <$> plan (blueprint st)) ->
  planStates st = initPlanStates (plan (blueprint st)) ->
  plan_inv st 0.
Proof.
  intros Hnd Hps. split; [lia|]. intros i s Hi.
  unfold status_of. rewrite Hps. unfold initPlanStates.
  rewrite (init_plan_states_from_lookup _ 0 ∅ i s) by done. pos_solve.
Qed.

Lemma advance_plan_inv now step st k :
  NoDup (step_id <$> plan (blueprint st)) ->
  plan_inv st k ->
  step ∈ plan (blueprint st) ->
  status_of (planStates st) (step_id step) = Active ->
  plan_inv (dispatch now (Advance step) st) (S k)
  /\ blueprint (dispatch now (Advance step) st) = blueprint st.
Proof.
  intros Hnd [Hk Hinv] Hin Hact.
  rewrite dispatch_advance. unfold plan_inv. cbn [planStates blueprint]. split; [|done].
  set (P := plan (blueprint st)) in *.
  apply list_elem_of_lookup in Hin as [i Hi].
  assert (i = k) as ->.
  { specialize (Hinv i step Hi). rewrite Hact in Hinv. revert Hinv. pos_solve. }
  pose proof (lookup_lt_Some _ _ _ Hi) as Hlt.
  rewrite (findIndex_step P k step) by done.
  unfold js_at.
  replace (Z.of_nat k + 1 <? 0) with false by (symmetry; apply Z.ltb_ge; lia).
  replace (Z.to_nat (Z.of_nat k + 1)) with (S k) by lia.
  split; [lia|]. intros j s Hj. unfold status_of.
  destruct (P !! S k) as [ns|] eqn:Hn.
  - destruct (decide (j = S k)) as [->|Hne].
    + rewrite Hj in Hn. injection Hn as ->. rewrite lookup_insert_eq. pos_solve.
    + rewrite lookup_insert_ne
        by (apply (plan_ids_ne P (S k) j); [done|done|done|lia]).
      destruct (decide (j = k)) as [->|Hne'].
      * rewrite Hi in Hj. injection Hj as ->. rewrite lookup_insert_eq. pos_solve.
      * rewrite lookup_insert_ne
          by (apply (plan_ids_ne P k j); [done|done|done|lia]).
        specialize (Hinv j s Hj). unfold status_of in Hinv. rewrite Hinv. pos_solve.
  - destruct (decide (j = k)) as [->|Hne'].
    + rewrite Hi in Hj. injection Hj as ->. rewrite lookup_insert_eq. pos_solve.
    + rewrite lookup_insert_ne
        by (apply (plan_ids_ne P k j); [done|done|done|lia]).
      assert (j <> S k).
      { intros ->. rewrite Hj in Hn. done. }
      specialize (Hinv j s Hj). unfold status_of in Hinv. rewrite Hinv. pos_solve.
Qed.

Lemma advances_plan_inv n st0 st :
  NoDup (step_id <$> plan (blueprint st0)) ->
  planStates st0 = initPlanStates (plan (blueprint st0)) ->
  advances craftBlueprint createActivity runToolSimulation n st0 st ->
  plan_inv st n /\ blueprint st = blueprint st0.
Proof.
  intros Hnd Hinit Hrun. induction Hrun as [st|n st st' st'' Hrun IH Hstep].
  - split; [by apply init_plan_inv|done].
  - destruct (IH Hnd Hinit) as [Hinv Hbp].
    inversion Hstep as [now step s Hin Hact]; subst.
    rewrite <- Hbp in Hnd.
    destruct (advance_plan_inv now step st' n Hnd Hinv Hin Hact) as [Hinv' Hbp'].
    split; [done|congruence].
Qed.

Lemma statuses_plan_inv st k :
  plan_inv st k ->
  statuses st = pos_status k <$> seq 0 (length (plan (blueprint st))).
Proof.
  intros [_ Hinv]. apply list_eq. intros i. unfold statuses.
  rewrite !list_lookup_fmap.
  destruct (plan (blueprint st) !! i) as [s|] eqn:Hi.
  - pose proof (lookup_lt_Some _ _ _ Hi).
    rewrite lookup_seq_lt by done. simpl. by rewrite (Hinv i s Hi).
  - apply lookup_ge_None in Hi. by rewrite lookup_seq_ge.
Qed.

Lemma count_done_pos k n :
  count_status Done (pos_status k <$> seq 0 n) = Nat.min k n.
Proof.
  induction n as [|n IH]; [by rewrite Nat.min_0_r|].
  unfold count_status in *.
  rewrite seq_S, fmap_app, filter_app, length_app, IH. simpl.
  unfold pos_status; repeat case_decide; simpl; lia.
Qed.

Lemma count_active_pos k n :
  count_status Active (pos_status k <$> seq 0 n) = if decide (k < n)%nat then 1%nat else 0%nat.
Proof.
  induction n as [|n IH]; [done|].
  unfold count_status in *.
  rewrite seq_S, fmap_app, filter_app, length_app, IH. simpl.
  unfold pos_status; repeat case_decide; simpl; lia.
Qed.

(** The effect of [handleGenerate], field by field. *)
Lemma dispatch_generate now st :
  dispatch now Generate st = {|
    config := config st;
    blueprint := craftBlueprint (config st);
    planStates := initPlanStates (plan (craftBlueprint (config st)));
    activity := createActivity now (js "Mission Rebuilt")
        (js "Agent recalibrated around " ++ [34]
           ++ str_or (goal (config st)) (js "new objective") ++ [34; 46])
      :: activity st;
    insights := insights st;
    insightDraft := insightDraft st;
    insightCategory := insightCategory st;
    knowledgeQuery := knowledgeQuery st;
    toolHistory := toolHistory st |}.
Proof. by destruct st. Qed.

(** ** C1: advancing the active step *)

(** C1. From a fresh plan state (step 0 active, the others pending) of a
    plan whose step ids are distinct, after [n] clicks of "Mark Complete",
    each on the step that is active at the time, the plan is unchanged,
    exactly [n] steps are done, at most one is active, and an active step
    is preceded only by done steps, i.e. it is the first step not done. *)
Theorem plan_advances_invariant (st0 : State) (n : nat) (st : State) :
  NoDup (step_id <$> plan (blueprint st0)) ->
  planStates st0 = initPlanStates (plan (blueprint st0)) ->
  advances craftBlueprint createActivity runToolSimulation n st0 st ->
  plan (blueprint st) = plan (blueprint st0) /\
  count_status Done (statuses st) = n /\
  (count_status Active (statuses st) <= 1)%nat /\
  (forall i s, plan (blueprint st) !! i = Some s ->
     status_of (planStates st) (step_id s) = Active ->
     forall j s', (j < i)%nat -> plan (blueprint st) !! j = Some s' ->
       status_of (planStates st) (step_id s') = Done).
Proof.
  intros Hnd Hinit Hrun.
  destruct (advances_plan_inv n st0 st Hnd Hinit Hrun) as [Hinv Hbp].
  pose proof Hinv as [Hle Hpos].
  split; [by rewrite Hbp|].
  rewrite (statuses_plan_inv st n Hinv), count_done_pos, count_active_pos.
  split; [lia|]. split; [case_decide; lia|].
  intros i s Hi Hact j s' Hj Hs'.
  rewrite (Hpos i s Hi) in Hact. rewrite (Hpos j s' Hs').
  revert Hact. pos_solve.
Qed.

(** ** C4, C5: regenerating the blueprint *)

(** C4. Whatever the previous plan state, "generate" installs the plan
    crafted from the current configuration with its first step active and
    every other step pending; ids outside the new plan have no state left.
    The plan's step ids are assumed distinct. *)
Theorem generate_resets_plan now st :
  NoDup (step_id <$> plan (craftBlueprint (config st))) ->
  let st' := dispatch now Generate st in
  blueprint st' = craftBlueprint (config st) /\
  (forall i s, plan (blueprint st') !! i = Some s ->
     planStates st' !! step_id s = Some (if decide (i = 0%nat) then Active else Pending)) /\
  (forall k, k ∉ step_id <$> plan (blueprint st') -> planStates st' !! k = None).
Proof.
  intros Hnd. cbv zeta. rewrite dispatch_generate. cbn [blueprint planStates].
  split; [done|split].
  - intros i s Hi. unfold initPlanStates.
    by rewrite (init_plan_states_from_lookup _ 0 ∅ i s).
  - intros k Hk. unfold initPlanStates.
    by rewrite init_plan_states_from_notin.
Qed.

(** C5. Regenerating the blueprint keeps the tool history as it was. *)
Theorem generate_keeps_tool_history now st :
  toolHistory (dispatch now Generate st) = toolHistory st.
Proof. by rewrite dispatch_generate. Qed.

(** ** C9: advancing a step that is not in the plan *)

(** C9. [handleAdvance] on a step whose id is not in the current plan
    finds index -1, so [plan[-1 + 1]] is the first step: the foreign id is
    marked done and the first step of the plan is set active. *)
Theorem advance_foreign_step now step st first rest :
  plan (blueprint st) = first :: rest ->
  step_id step ∉ step_id <$> plan (blueprint st) ->
  planStates (dispatch now (Advance step) st)
  = <[step_id first := Active]> (<[step_id step := Done]> (planStates st)).
Proof.
  intros Hplan Hnotin. rewrite dispatch_advance. cbn [planStates].
  unfold findIndex. rewrite findIndex_absent.
  - by rewrite Hplan.
  - apply Forall_forall. intros y Hy. apply bool_decide_eq_false. intros Heq.
    apply Hnotin. rewrite <- Heq. by apply list_elem_of_fmap_2.
Qed.

Local Abbreviation run_actions := (run_actions craftBlueprint createActivity runToolSimulation).

(** ** Tool history *)

Lemma toolHistory_dispatch now a st :
  toolHistory (dispatch now a st) =
  match a with
  | FireTool t =>
      <[t := take 5 (runToolSimulation now t (goal (config st))
                     :: default [] (toolHistory st !! t))]> (toolHistory st)
  | _ => toolHistory st
  end.
Proof.
  destruct st as [c b p act i d ic q h].
  destruct a; try reflexivity.
  unfold dispatch, handlers, handleInsightCreate. simpl.
  by destruct (trim d).
Qed.

Lemma take_app_take {A} (xs ys : list A) n :
  take n (xs ++ take n ys) = take n (xs ++ ys).
Proof.
  rewrite !take_app, take_take. do 2 f_equal. lia.
Qed.

(** The history of a tool after a session: its runs, newest first, on top
    of the (at most five) runs it started with, cut to five. *)
Lemma tool_history_session evs t st :
  (length (default [] (toolHistory st !! t)) <= 5)%nat ->
  default [] (toolHistory (run_actions evs st) !! t)
  = take 5 (rev (tool_runs craftBlueprint createActivity runToolSimulation t evs st)
            ++ default [] (toolHistory st !! t)).
Proof.
  revert st. induction evs as [|[now a] evs IH]; intros st Hlen.
  - simpl. by rewrite take_ge.
  - change (run_actions ((now, a) :: evs) st) with (run_actions evs (dispatch now a st)).
    assert (Hlen' : (length (default [] (toolHistory (dispatch now a st) !! t)) <= 5)%nat).
    { rewrite toolHistory_dispatch. destruct a; try done.
      destruct (decide (toolId = t)) as [->|Hne].
      - rewrite lookup_insert_eq. simpl. rewrite length_take. lia.
      - by rewrite lookup_insert_ne. }
    rewrite (IH _ Hlen'), toolHistory_dispatch. cbn [tool_runs].
    destruct a; try reflexivity.
    case_bool_decide as Heq.
    + subst. rewrite lookup_insert_eq. cbn [default rev id].
      by rewrite take_app_take, <- app_assoc.
    + by rewrite lookup_insert_ne.
Qed.

(** C2. Firing a tool prepends the new run to that tool's history and cuts
    the list to its first five elements, leaving other tools alone; so, in
    every session from a fresh mount, each tool's history is its five most
    recent runs, newest first, and never has more than five entries. *)
Theorem tool_history_newest_first :
  (forall now t st,
     toolHistory (dispatch now (FireTool t) st)
     = <[t := take 5 (runToolSimulation now t (goal (config st))
                      :: default [] (toolHistory st !! t))]> (toolHistory st)) /\
  (forall t0 evs t,
     let h := default [] (toolHistory (run_actions evs (initial_state craftBlueprint createActivity t0)) !! t) in
     h = take 5 (rev (tool_runs craftBlueprint createActivity runToolSimulation t evs
                        (initial_state craftBlueprint createActivity t0)))
     /\ (length h <= 5)%nat).
Proof.
  split.
  - intros now t st. apply (toolHistory_dispatch now (FireTool t) st).
  - intros t0 evs t. cbv zeta.
    assert (H0 : toolHistory (initial_state craftBlueprint createActivity t0) !! t = None)
      by apply lookup_empty.
    rewrite tool_history_session by (rewrite H0; simpl; lia).
    rewrite H0. simpl. rewrite app_nil_r. split; [done|]. rewrite length_take. lia.
Qed.

(** ** Insights *)

Lemma trim_start_nil s : trim_start s = [] <-> forallb is_js_ws s = true.
Proof.
  induction s as [|c r IH]; simpl; [done|].
  destruct (is_js_ws c); simpl; [done|]. split; discriminate.
Qed.

Lemma forallb_rev_eq {A} (f : A -> bool) (l : list A) : forallb f (rev l) = forallb f l.
Proof.
  induction l as [|x l IH]; simpl; [done|].
  rewrite forallb_app, IH. simpl. by rewrite andb_true_r, andb_comm.
Qed.

Lemma forallb_trim_start s : forallb is_js_ws (trim_start s) = true <-> trim_start s = [].
Proof.
  induction s as [|c r IH]; simpl; [done|].
  destruct (is_js_ws c) eqn:Hc; [done|]. simpl. rewrite Hc. split; discriminate.
Qed.

(** [!s.trim()] holds exactly for the strings made only of whitespace. *)
Lemma trim_nil s : trim s = [] <-> forallb is_js_ws s = true.
Proof.
  unfold trim. rewrite <- trim_start_nil.
  split.
  - intros H. apply (f_equal (@rev Z)) in H. rewrite rev_involutive in H. simpl in H.
    apply trim_start_nil in H. rewrite forallb_rev_eq in H. by apply forallb_trim_start.
  - intros H. rewrite H. done.
Qed.

(** The effect of [handleInsightCreate]. *)
Lemma dispatch_capture now st :
  dispatch now CaptureInsight st =
  if forallb is_js_ws (insightDraft st) then st else
  let entry := {| insight_id := js "insight-" ++ number_to_string now;
                  text := trim (insightDraft st);
                  category := insightCategory st;
                  createdAt := now |} in
  {| config := config st;
     blueprint := blueprint st;
     planStates := planStates st;
     activity := createActivity now (js "Insight Captured") (text entry) :: activity st;
     insights := entry :: insights st;
     insightDraft := [];
     insightCategory := insightCategory st;
     knowledgeQuery := knowledgeQuery st;
     toolHistory := toolHistory st |}.
Proof.
  destruct st as [c b p act i d ic q h].
  unfold dispatch, handlers, handleInsightCreate. cbn [insightDraft insightCategory].
  destruct (forallb is_js_ws d) eqn:Hw.
  - apply trim_nil in Hw. by rewrite Hw.
  - destruct (trim d) eqn:Ht; [|reflexivity].
    apply trim_nil in Ht. congruence.
Qed.

(** C3. Capturing an insight whose draft is empty or only whitespace leaves
    the whole state unchanged; otherwise exactly one new entry, stamped with
    the capture time, is put in front of the insight list. *)
Theorem insight_capture_guard now st :
  if forallb is_js_ws (insightDraft st)
  then dispatch now CaptureInsight st = st
  else exists e, insights (dispatch now CaptureInsight st) = e :: insights st
                 /\ createdAt e = now.
Proof.
  rewrite dispatch_capture. destruct (forallb is_js_ws (insightDraft st)); [done|].
  simpl. by eexists.
Qed.

(** C10. A successful capture stores the trimmed draft as the entry's text
    and resets the draft to the empty string. *)
Theorem insight_capture_trims now st :
  forallb is_js_ws (insightDraft st) = false ->
  (exists e, insights (dispatch now CaptureInsight st) = e :: insights st
             /\ text e = trim (insightDraft st))
  /\ insightDraft (dispatch now CaptureInsight st) = [].
Proof.
  intros Hw. rewrite dispatch_capture, Hw. simpl. split; [by eexists|done].
Qed.

(** ** Knowledge search *)

Lemma is_substring_nil s : is_substring [] s = true.
Proof. destruct s; reflexivity. Qed.

(** C6. Searching with the empty query returns the whole catalog; a query
    matching no item's title, summary or tags returns no item. *)
Theorem knowledge_search_empty_and_nomatch :
  searchKnowledge knowledgeBase [] = knowledgeBase /\
  (forall q, Forall (fun item => item_matches q item = false) knowledgeBase ->
     searchKnowledge knowledgeBase q = []).
Proof.
  unfold searchKnowledge. split.
  - induction knowledgeBase as [|it l IH]; [done|].
    rewrite filter_cons_True; [by rewrite IH|].
    unfold item_matches. by rewrite is_substring_nil.
  - intros q Hall. induction Hall as [|it l Hit Hl IH]; [done|].
    rewrite filter_cons_False; [done|]. by rewrite Hit.
Qed.

(** ** Activity stream *)

Lemma activity_dispatch now a st :
  if logs_activity a st
  then exists e, activity (dispatch now a st) = e :: activity st
  else activity (dispatch now a st) = activity st.
Proof.
  destruct a; simpl; try (destruct st; reflexivity); try (destruct st; by eexists).
  rewrite dispatch_capture. destruct (forallb is_js_ws (insightDraft st)); simpl;
    [done|by eexists].
Qed.

Lemma activity_session evs st :
  exists fresh, activity (run_actions evs st) = fresh ++ activity st.
Proof.
  revert st. induction evs as [|[now a] evs IH]; intros st; [by exists []|].
  change (run_actions ((now, a) :: evs) st) with (run_actions evs (dispatch now a st)).
  destruct (IH (dispatch now a st)) as [fresh Hf]. rewrite Hf.
  pose proof (activity_dispatch now a st) as Ha.
  destruct (logs_activity a st).
  - destruct Ha as [e He]. exists (fresh ++ [e]). rewrite He, <- app_assoc. done.
  - exists fresh. by rewrite Ha.
Qed.

(** C7, amended. Generating, advancing a step, firing a tool and capturing a
    non-blank insight each put exactly one new entry in front of the
    activity stream; the other events (form edits, draft and category
    edits, knowledge queries, blank captures) leave it unchanged; over any
    session the entries present at its start stay, unmodified, at its end. *)
Theorem activity_log_append_only :
  (forall now a st,
     if logs_activity a st
     then exists e, activity (dispatch now a st) = e :: activity st
     else activity (dispatch now a st) = activity st) /\
  (forall evs st, exists fresh, activity (run_actions evs st) = fresh ++ activity st).
Proof. split; [apply activity_dispatch|apply activity_session]. Qed.

(** ** Mission configuration *)

(** C8, amended. Each form input replaces one field of the configuration,
    keeping the others; "generate" issues no configuration update and leaves
    the configuration as it was. *)
Theorem config_updates :
  (forall now st,
     Forall (fun u => is_config_update u = false)
       (handlers craftBlueprint createActivity runToolSimulation now Generate st)
     /\ config (dispatch now Generate st) = config st) /\
  (forall now v st, config (dispatch now (EditGoal v) st) = with_goal v (config st)) /\
  (forall now v st, config (dispatch now (EditContext v) st) = with_context v (config st)) /\
  (forall now v st, config (dispatch now (EditTimeframe v) st) = with_timeframe v (config st)) /\
  (forall now v st, config (dispatch now (EditIntensity v) st) = with_intensity v (config st)) /\
  (forall now v st, config (dispatch now (EditGuardrails v) st) = with_guardrails v (config st)).
Proof.
  split; [intros now st; split; [repeat constructor|by rewrite dispatch_generate]|].
  repeat split; intros now v st; by destruct st.
Qed.

(** ** Extras: the active step and the plan header *)

Lemma js_find_at {A} (p : A -> bool) (l : list A) k x :
  l !! k = Some x -> p x = true ->
  (forall j y, (j < k)%nat -> l !! j = Some y -> p y = false) ->
  js_find p l = Some x.
Proof.
  revert k. induction l as [|a l IH]; intros k Hk Hx Hbefore; [done|].
  destruct k as [|k]; simpl in Hk |- *.
  - injection Hk as ->. by rewrite Hx.
  - rewrite (Hbefore 0%nat a) by (done || lia).
    apply (IH k); [done|done|]. intros j y Hj Hy. apply (Hbefore (S j)); [lia|done].
Qed.

Lemma js_find_none {A} (p : A -> bool) (l : list A) :
  (forall j y, l !! j = Some y -> p y = false) -> js_find p l = None.
Proof.
  induction l as [|a l IH]; intros Hall; [done|]. simpl.
  rewrite (Hall 0%nat a) by done. apply IH. intros j y Hy. by apply (Hall (S j)).
Qed.

Lemma status_of_active (m : PlanState) k : status_of m k = Active <-> m !! k = Some Active.
Proof. unfold status_of. destruct (m !! k) as [v|]; simpl; split; congruence. Qed.

(** With steps [0 .. k-1] done and step [k] active, [find] returns step [k]. *)
Lemma active_step_inv st k :
  plan_inv st k -> activeStep st = plan (blueprint st) !! k.
Proof.
  intros [Hk Hinv]. unfold activeStep.
  destruct (plan (blueprint st) !! k) as [x|] eqn:Hx.
  - apply (js_find_at _ _ k).
    + done.
    + apply bool_decide_eq_true, status_of_active. rewrite (Hinv k x Hx). pos_solve.
    + intros j y Hj Hy. apply bool_decide_eq_false. rewrite <- status_of_active.
      rewrite (Hinv j y Hy). pos_solve.
  - apply js_find_none. intros j y Hy. apply bool_decide_eq_false.
    rewrite <- status_of_active, (Hinv j y Hy).
    assert (j <> k) by (intros ->; congruence). pos_solve.
Qed.

(** After [n] clicks of "Mark Complete" from a fresh plan state (distinct
    step ids), the active step found by the timeline is step [n] of the
    plan, and the header reads "Current focus: <its title>"; once every step
    is done, no step is active and the header reads "All steps complete". *)
Theorem active_step_after_advances (st0 : State) (n : nat) (st : State) :
  NoDup (step_id <$> plan (blueprint st0)) ->
  planStates st0 = initPlanStates (plan (blueprint st0)) ->
  advances craftBlueprint createActivity runToolSimulation n st0 st ->
  activeStep st = plan (blueprint st0) !! n /\
  focus_text st = match plan (blueprint st0) !! n with
                  | Some step => js "Current focus: " ++ title step
                  | None => js "All steps complete"
                  end.
Proof.
  intros Hnd Hinit Hrun.
  destruct (advances_plan_inv n st0 st Hnd Hinit Hrun) as [Hinv Hbp].
  assert (Ha : activeStep st = plan (blueprint st0) !! n)
    by (rewrite (active_step_inv st n Hinv); by rewrite Hbp).
  split; [done|]. unfold focus_text. by rewrite Ha.
Qed.

(** After "generate" (the new plan's ids distinct), the active step is the
    first step of the new plan, whatever the progress before. *)
Theorem generate_focuses_first_step now st :
  NoDup (step_id <$> plan (craftBlueprint (config st))) ->
  activeStep (dispatch now Generate st) = head (plan (craftBlueprint (config st))).
Proof.
  intros Hnd. rewrite head_lookup.
  assert (Hinv : plan_inv (dispatch now Generate st) 0).
  { apply init_plan_inv; rewrite dispatch_generate; done. }
  rewrite (active_step_inv _ 0 Hinv). by rewrite dispatch_generate.
Qed.

(** ** Extras: the initial plan state when step ids repeat *)

Lemma init_plan_states_from_later index (steps : list PlanStep) next k :
  index <> 0%nat ->
  init_plan_states_from index steps next !! k
  = if bool_decide (k ∈ step_id <$> steps) then Some Pending else next !! k.
Proof.
  revert index next. induction steps as [|s rest IH]; intros index next Hidx; [done|].
  cbn [init_plan_states_from]. rewrite (IH (S index)) by lia.
  rewrite decide_False by done.
  case_bool_decide as Hr.
  - rewrite bool_decide_eq_true_2; [done|]. rewrite fmap_cons, elem_of_cons. by right.
  - rewrite lookup_insert. case_decide as He.
    + subst. rewrite bool_decide_eq_true_2; [done|]. rewrite fmap_cons, elem_of_cons. by left.
    + rewrite bool_decide_eq_false_2; [done|]. rewrite fmap_cons, elem_of_cons.
      intros [Hk|Hk]; congruence.
Qed.

(** The [forEach] that builds a fresh plan state writes the ids in plan
    order, a later write winning: an id that occurs after position 0 ends up
    "pending", the first step's id ends up "active" only if it does not occur
    again, and ids outside the plan have no entry.  So a plan repeating its
    first step's id starts with no active step. *)
Theorem init_plan_states_lookup (steps : list PlanStep) k :
  initPlanStates steps !! k =
  match steps with
  | [] => None
  | s0 :: rest =>
      if bool_decide (k ∈ step_id <$> rest) then Some Pending
      else if bool_decide (k = step_id s0) then Some Active else None
  end.
Proof.
  destruct steps as [|s0 rest]; [done|].
  unfold initPlanStates. simpl. rewrite init_plan_states_from_later by lia.
  case_bool_decide; [done|]. rewrite lookup_insert.
  case_decide; case_bool_decide; subst; try congruence.
  by rewrite lookup_empty.
Qed.

(** ** Extras: what each event leaves alone *)

Lemma blueprint_dispatch now a st :
  a <> Generate -> blueprint (dispatch now a st) = blueprint st.
Proof.
  intros Ha. destruct a; try congruence;
    try (rewrite dispatch_capture; by destruct (forallb is_js_ws (insightDraft st)));
    by destruct st.
Qed.

(** The blueprint changes only on "generate": a session without it, however
    it edits the configuration, keeps the plan and tools on screen as they
    were, even when they no longer match the configuration. *)
Theorem blueprint_changes_only_on_generate evs st :
  Forall (fun e => e.2 <> Generate) evs ->
  blueprint (run_actions evs st) = blueprint st.
Proof.
  revert st. induction evs as [|[now a] evs IH]; intros st Hall; [done|].
  apply Forall_cons in Hall as [Ha Hall]. simpl in Ha.
  change (run_actions ((now, a) :: evs) st) with (run_actions evs (dispatch now a st)).
  rewrite IH by done. by apply blueprint_dispatch.
Qed.

(** Only "generate" and "Mark Complete" change the plan state, and only a
    capture changes the insight ledger. *)
Theorem event_frames now a st :
  (match a with
   | Generate | Advance _ => True
   | _ => planStates (dispatch now a st) = planStates st
   end) /\
  (match a with
   | CaptureInsight => True
   | _ => insights (dispatch now a st) = insights st
   end).
Proof.
  destruct a;
    try (rewrite dispatch_capture; destruct (forallb is_js_ws (insightDraft st)); by split);
    destruct st; split; done.
Qed.

(** ** Extras: insight ids *)

Lemma uint_digits_inj d1 d2 : uint_digits d1 = uint_digits d2 -> d1 = d2.
Proof.
  revert d2. induction d1; intros d2 H; destruct d2; simpl in H;
    try discriminate; try reflexivity; injection H as H; f_equal; auto.
Qed.

Lemma uint_digits_not_minus d r : uint_digits d <> 45 :: r.
Proof. destruct d; simpl; congruence. Qed.

(** [`${n}`] on integers is injective. *)
Lemma number_to_string_inj z1 z2 : number_to_string z1 = number_to_string z2 -> z1 = z2.
Proof.
  unfold number_to_string. intros H.
  rewrite <- (DecimalZ.of_to z1), <- (DecimalZ.of_to z2). f_equal.
  destruct (Z.to_int z1), (Z.to_int z2).
  - by rewrite (uint_digits_inj _ _ H).
  - by apply uint_digits_not_minus in H.
  - symmetry in H. by apply uint_digits_not_minus in H.
  - injection H as H. by rewrite (uint_digits_inj _ _ H).
Qed.

(** Insights captured at different times (readings of [Date.now()]) get
    different ids ["insight-<time>"]. *)
Theorem insight_ids_distinct now1 now2 st1 st2 e1 e2 :
  forallb is_js_ws (insightDraft st1) = false ->
  forallb is_js_ws (insightDraft st2) = false ->
  insights (dispatch now1 CaptureInsight st1) = e1 :: insights st1 ->
  insights (dispatch now2 CaptureInsight st2) = e2 :: insights st2 ->
  now1 <> now2 ->
  insight_id e1 <> insight_id e2.
Proof.
  intros Hw1 Hw2 H1 H2 Hne.
  rewrite dispatch_capture, Hw1 in H1. rewrite dispatch_capture, Hw2 in H2.
  cbv beta iota zeta in H1, H2. cbn [insights] in H1, H2.
  injection H1 as <-. injection H2 as <-. cbn [insight_id].
  intros Hid. apply Hne, number_to_string_inj.
  apply (app_inv_head (js "insight-")). exact Hid.
Qed.

(** ** Extras: the insight ledger over a session *)

Lemma insights_dispatch now a st :
  map text (insights (dispatch now a st)) =
  match a with
  | CaptureInsight =>
      match trim (insightDraft st) with [] => [] | t => [t] end
  | _ => []
  end ++ map text (insights st).
Proof.
  destruct a; try (destruct st; reflexivity).
  rewrite dispatch_capture. destruct (forallb is_js_ws (insightDraft st)) eqn:Hw.
  - apply trim_nil in Hw. by rewrite Hw.
  - destruct (trim (insightDraft st)) eqn:Ht; [apply trim_nil in Ht; congruence|].
    reflexivity.
Qed.

Lemma insights_session evs st :
  map text (insights (run_actions evs st))
  = rev (captured_texts craftBlueprint createActivity runToolSimulation evs st)
    ++ map text (insights st).
Proof.
  revert st. induction evs as [|[now a] evs IH]; intros st; [done|].
  change (run_actions ((now, a) :: evs) st) with (run_actions evs (dispatch now a st)).
  rewrite IH, insights_dispatch. cbn [captured_texts].
  destruct a; try reflexivity.
  destruct (trim (insightDraft st)); [reflexivity|].
  cbn [rev]. by rewrite <- app_assoc.
Qed.

(** The insight ledger after a session is the list of captured texts,
    newest first, on top of the ledger it started with: every non-blank
    capture adds its trimmed draft, nothing else adds or removes entries. *)
Theorem insight_ledger_session evs st :
  map text (insights (run_actions evs st))
  = rev (captured_texts craftBlueprint createActivity runToolSimulation evs st)
    ++ map text (insights st).
Proof. apply insights_session. Qed.

Lemma trim_start_head s :
  match trim_start s with [] => True | c :: _ => is_js_ws c = false end.
Proof.
  induction s as [|c r IH]; simpl; [done|]. destruct (is_js_ws c) eqn:Hc; done.
Qed.

Lemma trim_start_suffix s : exists p, s = p ++ trim_start s.
Proof.
  induction s as [|c r [p Hp]]; [by exists []|]. simpl.
  destruct (is_js_ws c); [exists (c :: p); simpl; by rewrite <- Hp|by exists []].
Qed.

Lemma last_rev_head {A} (l : list A) : last (rev l) = head l.
Proof. destruct l as [|x l]; [done|]. simpl. by rewrite last_snoc. Qed.

Lemma head_rev_last {A} (l : list A) : head (rev l) = last l.
Proof.
  induction l as [|x l IH]; [done|]. simpl. rewrite head_app, IH, last_cons.
  destruct (last l); done.
Qed.

(** A non-blank draft trims to a non-empty text without whitespace at
    either end. *)
Lemma trim_clean s : trim s <> [] -> clean_text (trim s) = true.
Proof.
  unfold trim, clean_text. intros Hne.
  rewrite head_rev_last, last_rev_head.
  pose proof (trim_start_head (rev (trim_start s))) as H2.
  destruct (trim_start (rev (trim_start s))) as [|c r] eqn:HT2; [done|].
  destruct (trim_start_suffix (rev (trim_start s))) as [p Hp].
  rewrite HT2 in Hp.
  pose proof (trim_start_head s) as H1.
  destruct (trim_start s) as [|c1 r1] eqn:HT1; [by destruct p|].
  assert (Hlast : last (c :: r) = Some c1).
  { rewrite <- (last_app_cons p r c), <- Hp. simpl. by rewrite last_snoc. }
  simpl head. rewrite Hlast. cbn. by rewrite H1, H2.
Qed.

Lemma captured_texts_clean evs st :
  Forall (fun s => clean_text s = true)
    (captured_texts craftBlueprint createActivity runToolSimulation evs st).
Proof.
  revert st. induction evs as [|[now a] evs IH]; intros st; [constructor|].
  cbn [captured_texts]. destruct a; try apply IH.
  destruct (trim (insightDraft st)) eqn:Ht; [apply IH|].
  constructor; [|apply IH]. rewrite <- Ht. apply trim_clean. by rewrite Ht.
Qed.

(** From a fresh mount, every insight in the ledger has a non-empty text
    that neither starts nor ends with a whitespace code unit. *)
Theorem insight_ledger_clean t0 evs :
  Forall (fun s => clean_text s = true)
    (map text (insights (run_actions evs (initial_state craftBlueprint createActivity t0)))).
Proof.
  rewrite insights_session. simpl. rewrite app_nil_r.
  apply Forall_rev, captured_texts_clean.
Qed.

End Proofs.

(** ** Witnesses on the sample session *)

Lemma plan_advances_witness :
  NoDup (step_id <$> plan (blueprint sample_state)) /\
  planStates sample_state = initPlanStates (plan (blueprint sample_state)) /\
  advances sample_blueprint sample_activity sample_run 2 sample_state sample_advanced /\
  count_status Done (statuses sample_advanced) = 2%nat.
Proof.
  assert (H1 : NoDup (step_id <$> plan (blueprint sample_state)))
    by (apply (bool_decide_unpack _); vm_compute; reflexivity).
  assert (H2 : planStates sample_state = initPlanStates (plan (blueprint sample_state)))
    by reflexivity.
  assert (H3 : advances sample_blueprint sample_activity sample_run 2 sample_state sample_advanced).
  { unfold sample_advanced, sample_dispatch.
    eapply advances_succ; [eapply advances_succ; [apply advances_zero|]|];
      constructor; try (apply list_elem_of_lookup).
    - exists 0%nat. reflexivity.
    - vm_compute. reflexivity.
    - exists 1%nat. reflexivity.
    - vm_compute. reflexivity. }
  split; [exact H1|]. split; [exact H2|]. split; [exact H3|].
  exact (proj1 (proj2 (plan_advances_invariant sample_blueprint sample_activity sample_run
    sample_state 2 sample_advanced H1 H2 H3))).
Defined.

Lemma generate_resets_plan_witness :
  NoDup (step_id <$> plan (sample_blueprint (config sample_state))) /\
  planStates (sample_dispatch 2000 Generate sample_state) !! step_id (sample_step 1)
  = Some Active.
Proof.
  assert (H1 : NoDup (step_id <$> plan (sample_blueprint (config sample_state))))
    by (apply (bool_decide_unpack _); vm_compute; reflexivity).
  split; [exact H1|].
  exact (proj1 (proj2 (generate_resets_plan sample_blueprint sample_activity sample_run
    2000 sample_state H1)) 0%nat (sample_step 1) eq_refl).
Defined.

Lemma advance_foreign_step_witness :
  plan (blueprint sample_state) = sample_step 1 :: [sample_step 2; sample_step 3] /\
  (step_id (sample_step 9) ∉ step_id <$> plan (blueprint sample_state)) /\
  planStates (sample_dispatch 2000 (Advance (sample_step 9)) sample_state)
  = <[step_id (sample_step 1) := Active]>
      (<[step_id (sample_step 9) := Done]> (planStates sample_state)).
Proof.
  assert (H1 : plan (blueprint sample_state) = sample_step 1 :: [sample_step 2; sample_step 3])
    by reflexivity.
  assert (H2 : step_id (sample_step 9) ∉ step_id <$> plan (blueprint sample_state))
    by (apply (bool_decide_unpack _); vm_compute; reflexivity).
  split; [exact H1|]. split; [exact H2|].
  exact (advance_foreign_step sample_blueprint sample_activity sample_run 2000
    (sample_step 9) sample_state (sample_step 1) _ H1 H2).
Defined.

Lemma insight_capture_trims_witness :
  forallb is_js_ws (insightDraft sample_drafted) = false /\
  insightDraft (sample_dispatch 1300 CaptureInsight sample_drafted) = [].
Proof.
  assert (H : forallb is_js_ws (insightDraft sample_drafted) = false) by reflexivity.
  split; [exact H|].
  exact (proj2 (insight_capture_trims sample_blueprint sample_activity sample_run
    1300 sample_drafted H)).
Defined.

Lemma knowledge_search_nomatch_witness :
  Forall (fun item => item_matches (js "zzz") item = false) sample_catalog /\
  searchKnowledge sample_catalog (js "zzz") = [].
Proof.
  assert (H : Forall (fun item => item_matches (js "zzz") item = false) sample_catalog)
    by (repeat constructor).
  split; [exact H|].
  exact (proj2 (knowledge_search_empty_and_nomatch sample_catalog) (js "zzz") H).
Defined.

(** ** Counterexamples *)

(** C7 as stated: editing the goal of the configuration, or typing a
    knowledge query, adds no entry to the activity stream. *)
Lemma activity_edits_not_logged :
  ~ (exists e, activity (sample_dispatch 2000 (EditGoal (js "Grow")) sample_state)
               = e :: activity sample_state) /\
  ~ (exists e, activity (sample_dispatch 2000 (EditKnowledgeQuery (js "growth")) sample_state)
               = e :: activity sample_state).
Proof.
  split; intros [e He]; vm_compute in He; discriminate.
Qed.

(** C8 as stated: "generate" issues no configuration update and the
    configuration after it is the one before it. *)
Lemma generate_keeps_config_sample :
  Forall (fun u => is_config_update u = false)
    (handlers sample_blueprint sample_activity sample_run 2000 Generate sample_state) /\
  config (sample_dispatch 2000 Generate sample_state) = config sample_state.
Proof. split; [repeat constructor | reflexivity]. Qed.

(** ** Sample runs *)

Example sample_trim :
  trim [32; 9; 80; 32; 81; 160; 10] = [80; 32; 81].
Proof. reflexivity. Qed.

Example sample_capture_text :
  map text (insights (sample_dispatch 1300 CaptureInsight sample_drafted))
  = [js "Pricing signal"].
Proof. vm_compute. reflexivity. Qed.

Example sample_blank_capture :
  sample_dispatch 1300 CaptureInsight
    (sample_dispatch 1200 (EditInsightDraft [32; 10; 12288]) sample_state)
  = sample_dispatch 1200 (EditInsightDraft [32; 10; 12288]) sample_state.
Proof. reflexivity. Qed.

Example sample_tool_history :
  length (default [] (toolHistory
    (run_actions sample_blueprint sample_activity sample_run
       (map (fun n => (n, FireTool (js "scout"))) [1; 2; 3; 4; 5; 6; 7])
       sample_state) !! js "scout")) = 5%nat /\
  map timestamp (default [] (toolHistory
    (run_actions sample_blueprint sample_activity sample_run
       (map (fun n => (n, FireTool (js "scout"))) [1; 2; 3; 4; 5; 6; 7])
       sample_state) !! js "scout")) = [7; 6; 5; 4; 3].
Proof. split; vm_compute; reflexivity. Qed.

Example sample_advanced_statuses :
  statuses sample_advanced = [Done; Done; Active].
Proof. vm_compute. reflexivity. Qed.

Example sample_id_string : number_to_string 1700000000123 = js "1700000000123".
Proof. reflexivity. Qed.

(** ** Witnesses of the extra properties *)

Lemma sample_state_nodup : NoDup (step_id <$> plan (blueprint sample_state)).
Proof. apply (bool_decide_unpack _). vm_compute. reflexivity. Qed.

Lemma sample_state_fresh :
  planStates sample_state = initPlanStates (plan (blueprint sample_state)).
Proof. reflexivity. Qed.

Lemma sample_advanced_advances :
  advances sample_blueprint sample_activity sample_run 2 sample_state sample_advanced.
Proof.
  unfold sample_advanced, sample_dispatch.
  eapply advances_succ; [eapply advances_succ; [apply advances_zero|]|];
    constructor; try (apply list_elem_of_lookup).
  - exists 0%nat. reflexivity.
  - vm_compute. reflexivity.
  - exists 1%nat. reflexivity.
  - vm_compute. reflexivity.
Qed.

Lemma active_step_after_advances_witness :
  NoDup (step_id <$> plan (blueprint sample_state)) /\
  planStates sample_state = initPlanStates (plan (blueprint sample_state)) /\
  advances sample_blueprint sample_activity sample_run 2 sample_state sample_advanced /\
  activeStep sample_advanced = Some (sample_step 3).
Proof.
  split; [exact sample_state_nodup|]. split; [exact sample_state_fresh|].
  split; [exact sample_advanced_advances|].
  exact (proj1 (active_step_after_advances sample_blueprint sample_activity sample_run
    sample_state 2 sample_advanced sample_state_nodup sample_state_fresh
    sample_advanced_advances)).
Defined.

Lemma generate_focuses_first_step_witness :
  NoDup (step_id <$> plan (sample_blueprint (config sample_advanced))) /\
  activeStep (sample_dispatch 2000 Generate sample_advanced) = Some (sample_step 1).
Proof.
  assert (H : NoDup (step_id <$> plan (sample_blueprint (config sample_advanced))))
    by (apply (bool_decide_unpack _); vm_compute; reflexivity).
  split; [exact H|].
  exact (generate_focuses_first_step sample_blueprint sample_activity sample_run
    2000 sample_advanced H).
Defined.

Lemma blueprint_changes_only_on_generate_witness :
  Forall (fun e => e.2 <> Generate) sample_edits /\
  blueprint (run_actions sample_blueprint sample_activity sample_run sample_edits sample_state)
  = blueprint sample_state.
Proof.
  assert (H : Forall (fun e => e.2 <> Generate) sample_edits)
    by (repeat constructor; discriminate).
  split; [exact H|].
  exact (blueprint_changes_only_on_generate sample_blueprint sample_activity sample_run
    sample_edits sample_state H).
Defined.

Lemma insight_ids_distinct_witness :
  forallb is_js_ws (insightDraft sample_drafted) = false /\
  insight_id {| insight_id := js "insight-" ++ number_to_string 1300;
                text := js "Pricing signal"; category := Signal; createdAt := 1300 |}
  <> insight_id {| insight_id := js "insight-" ++ number_to_string 1301;
                   text := js "Pricing signal"; category := Signal; createdAt := 1301 |}.
Proof.
  assert (Hw : forallb is_js_ws (insightDraft sample_drafted) = false) by reflexivity.
  split; [exact Hw|].
  exact (insight_ids_distinct sample_blueprint sample_activity sample_run 1300 1301
    sample_drafted sample_drafted _ _ Hw Hw eq_refl eq_refl ltac:(lia)).
Defined.

(** A plan that repeats its first step's id starts with no active step. *)
Example sample_repeated_first_id :
  activeStep {| config := INITIAL_CONFIG;
                blueprint := {| missionTitle := []; missionSummary := []; operatingMode := [];
                                missionArc := []; cadence := [];
                                plan := [sample_step 1; sample_step 2; sample_step 1];
                                tools := []; quickActions := []; metrics := []; focusMap := [] |};
                planStates := initPlanStates [sample_step 1; sample_step 2; sample_step 1];
                activity := []; insights := []; insightDraft := [];
                insightCategory := Signal; knowledgeQuery := []; toolHistory := ∅ |}
  = None.
Proof. vm_compute. reflexivity. Qed.
